(** * Sigma firmware: startup safety check and debounced button loop

    A shallow embedding of [apps/firmware/src/main.cpp] and
    [apps/firmware/include/config.h].  The Arduino core (pin I/O, [millis],
    [Serial]) is an external collaborator: every call the firmware makes to it
    is recorded as an [Event] in a trace, and the values it hands back
    ([millis()], [digitalRead(pin)]) are inputs of each [loop] iteration. *)

From Stdlib Require Import ZArith List String Ascii Bool Lia.
From Stdlib Require Import Floats.SpecFloat.
Import ListNotations.

Local Open Scope string_scope.
Local Open Scope list_scope.
Local Open Scope Z_scope.

(* ------------------------------------------------------------------------- *)
(** ** C++ [float]: IEEE-754 binary32 values and their comparisons *)

Module Float32.

Definition prec : Z := 24.
Definition emax : Z := 128.

(** Specification floats: zeros, infinities, NaN and [m * 2^e] with sign. *)
Definition float : Type := spec_float.

Definition valid (x : float) : bool := valid_binary prec emax x.

(** Positive literal [m * 2^e]. *)
Definition lit (m : positive) (e : Z) : float := S754_finite false m e.

(** The relational operators of C++ on [float]; every comparison with a NaN
    operand is false. *)
Definition lt (a b : float) : bool := SFltb a b.
Definition le (a b : float) : bool := SFleb a b.
Definition gt (a b : float) : bool := SFltb b a.
Definition ge (a b : float) : bool := SFleb b a.

End Float32.

Abbreviation float := Float32.float.

(* ------------------------------------------------------------------------- *)
(** ** C++ [unsigned long] on the Arduino targets: 32 bits, wrapping *)

Definition ulong_bits : Z := 32.
Definition ulong_modulus : Z := 2 ^ ulong_bits.

Definition is_ulong (x : Z) : Prop := 0 <= x < ulong_modulus.

(** [a - b] on [unsigned long] operands. *)
Definition ulong_sub (a b : Z) : Z := (a - b) mod ulong_modulus.

(* ------------------------------------------------------------------------- *)
(** ** [config.h]: namespace [sigma::config] *)

Module config.

Record Config : Type := {
  kFirmwareVersion : string;
  kSerialBaudRate : Z;
  kStatusLedPin : Z;
  kButtonPin : Z;
  kRecommendedMaxSplDb : float;
  kAbsoluteMaxSplDb : float;
  kMicBiasMinVolts : float;
  kMicBiasMaxVolts : float;
  kBatteryNominalVolts : float;
  kBatteryLowVolts : float;
  kBatteryCriticalVolts : float
}.

(** The constants as [config.h] fixes them.  Each [float] literal is the
    binary32 value nearest to the decimal in the header. *)
Definition f85_0 : float := Float32.lit 11141120 (-17).  (* 85.0f *)
Definition f94_0 : float := Float32.lit 12320768 (-17).  (* 94.0f *)
Definition f1_8 : float := Float32.lit 15099494 (-23).   (* 1.8f *)
Definition f3_3 : float := Float32.lit 13841203 (-22).   (* 3.3f *)
Definition f3_7 : float := Float32.lit 15518925 (-22).   (* 3.7f *)
Definition f3_0 : float := Float32.lit 12582912 (-22).   (* 3.0f *)

Definition sigma : Config := {|
  kFirmwareVersion := "0.1.0";
  kSerialBaudRate := 115200;
  kStatusLedPin := 2;
  kButtonPin := 0;
  kRecommendedMaxSplDb := f85_0;
  kAbsoluteMaxSplDb := f94_0;
  kMicBiasMinVolts := f1_8;
  kMicBiasMaxVolts := f3_3;
  kBatteryNominalVolts := f3_7;
  kBatteryLowVolts := f3_3;
  kBatteryCriticalVolts := f3_0
|}.

End config.

Import config.

(* ------------------------------------------------------------------------- *)
(** ** The Arduino core as seen by the firmware *)

Module Arduino.

Definition LOW : Z := 0.
Definition HIGH : Z := 1.

Inductive PinMode : Type := INPUT | OUTPUT | INPUT_PULLUP.

(** Arguments of the overloads of [Serial.print] the firmware uses. *)
Inductive Printable : Type :=
| PStr (s : string)
| PFloat (f : float).

(** One call into the core. [SerialPrintln None] is [Serial.println()]. *)
Inductive Event : Type :=
| PinModeSet (pin : Z) (mode : PinMode)
| DigitalWrite (pin : Z) (level : Z)
| SerialBegin (baud : Z)
| SerialPrint (p : Printable)
| SerialPrintln (p : option Printable).

(** What the core returns during one [loop] iteration. *)
Record Env : Type := {
  millis : Z;
  digitalRead : Z -> Z
}.

End Arduino.

Import Arduino.

(* ------------------------------------------------------------------------- *)
(** ** File-scope variables of [main.cpp] and the firmware monad *)

Definition kDebounceDelayMs : Z := 10.

Record Globals : Type := {
  last_sample_ms : Z;
  button_state : bool
}.

(** Static initialisation: [last_sample_ms = 0], [button_state = false]. *)
Definition initial_globals : Globals :=
  {| last_sample_ms := 0; button_state := false |}.

(** A firmware routine reads and writes the globals and appends the calls it
    makes to the trace. *)
Definition Fw (A : Type) : Type := Globals -> A * Globals * list Event.

Definition ret {A : Type} (a : A) : Fw A := fun g => (a, g, []).

Definition bind {A B : Type} (m : Fw A) (k : A -> Fw B) : Fw B :=
  fun g =>
    let '(a, g1, t1) := m g in
    let '(b, g2, t2) := k a g1 in
    (b, g2, t1 ++ t2).

Declare Scope fw_scope.
Delimit Scope fw_scope with fw.
Notation "x <- m ;; k" := (bind m (fun x => k))
  (at level 61, m at next level, right associativity) : fw_scope.
Notation "m ;; k" := (bind m (fun _ => k))
  (at level 61, right associativity) : fw_scope.
Local Open Scope fw_scope.

Definition emit (e : Event) : Fw unit := fun g => (tt, g, [e]).

Definition get_last_sample_ms : Fw Z := fun g => (last_sample_ms g, g, []).
Definition get_button_state : Fw bool := fun g => (button_state g, g, []).

Definition set_last_sample_ms (v : Z) : Fw unit :=
  fun g => (tt, {| last_sample_ms := v; button_state := button_state g |}, []).
Definition set_button_state (v : bool) : Fw unit :=
  fun g => (tt, {| last_sample_ms := last_sample_ms g; button_state := v |}, []).

Definition pinMode (pin : Z) (mode : PinMode) : Fw unit :=
  emit (PinModeSet pin mode).
Definition digitalWrite (pin level : Z) : Fw unit :=
  emit (DigitalWrite pin level).
Definition Serial_begin (baud : Z) : Fw unit := emit (SerialBegin baud).
Definition Serial_print (p : Printable) : Fw unit := emit (SerialPrint p).
Definition Serial_println (p : Printable) : Fw unit :=
  emit (SerialPrintln (Some p)).
Definition Serial_println0 : Fw unit := emit (SerialPrintln None).

(* ------------------------------------------------------------------------- *)
(** ** [main.cpp] *)

(* The dash in the source literal is U+2013, three bytes in UTF-8. *)
Definition spl_warning : string :=
  ("[safety] Recommended SPL exceeds absolute maximum "
   ++ String (ascii_of_nat 226) (String (ascii_of_nat 128)
        (String (ascii_of_nat 147) " check config.h")))%string.

Definition enforce_audio_safety (cfg : Config) : Fw unit :=
  if Float32.gt (kRecommendedMaxSplDb cfg) (kAbsoluteMaxSplDb cfg)
  then Serial_println (PStr spl_warning)
  else ret tt.

Definition report_safety_callouts (cfg : Config) : Fw unit :=
  Serial_print (PStr "[safety] Maintain SPL under ") ;;
  Serial_print (PFloat (kRecommendedMaxSplDb cfg)) ;;
  Serial_println (PStr " dB for extended sessions (absolute max 94 dB).") ;;
  Serial_print (PStr "[safety] Keep mic bias between ") ;;
  Serial_print (PFloat (kMicBiasMinVolts cfg)) ;;
  Serial_print (PStr " V and ") ;;
  Serial_print (PFloat (kMicBiasMaxVolts cfg)) ;;
  Serial_println (PStr " V.") ;;
  Serial_print (PStr "[safety] Stop use if battery drops below ") ;;
  Serial_print (PFloat (kBatteryLowVolts cfg)) ;;
  Serial_println (PStr " V (critical at 3.0 V).").

Definition setup (cfg : Config) : Fw unit :=
  pinMode (kStatusLedPin cfg) OUTPUT ;;
  pinMode (kButtonPin cfg) INPUT_PULLUP ;;
  digitalWrite (kStatusLedPin cfg) LOW ;;
  Serial_begin (kSerialBaudRate cfg) ;;
  Serial_println0 ;;
  Serial_print (PStr "Sigma firmware ready (v") ;;
  Serial_print (PStr (kFirmwareVersion cfg)) ;;
  Serial_println (PStr ")") ;;
  Serial_println (PStr "Press the button to toggle the status LED") ;;
  enforce_audio_safety cfg ;;
  report_safety_callouts cfg.

Definition loop (cfg : Config) (env : Env) : Fw unit :=
  let now := millis env in
  last <- get_last_sample_ms ;;
  if ulong_sub now last <? kDebounceDelayMs then ret tt
  else
    set_last_sample_ms now ;;
    let pressed := digitalRead env (kButtonPin cfg) =? LOW in
    current <- get_button_state ;;
    if negb (Bool.eqb pressed current) then
      set_button_state pressed ;;
      digitalWrite (kStatusLedPin cfg) (if pressed then HIGH else LOW) ;;
      Serial_print (PStr "Button state: ") ;;
      Serial_println (PStr (if pressed then "pressed" else "released"))
    else ret tt.

(* ------------------------------------------------------------------------- *)
(** ** Running the firmware

    The Arduino core's [main] calls [setup()] once and then [loop()] for
    ever.  A [System] is the firmware's globals together with the trace of
    the calls made so far. *)

Record System : Type := {
  globals : Globals;
  trace : list Event
}.

Definition exec (m : Fw unit) (sys : System) : System :=
  let '(_, g, t) := m (globals sys) in
  {| globals := g; trace := trace sys ++ t |}.

Definition power_on : System := {| globals := initial_globals; trace := [] |}.

Definition boot (cfg : Config) : System := exec (setup cfg) power_on.

Definition run (cfg : Config) (envs : list Env) (sys : System) : System :=
  fold_left (fun s env => exec (loop cfg env) s) envs sys.

(** State and events of one routine started in [g]. *)
Definition state_after (m : Fw unit) (g : Globals) : Globals := snd (fst (m g)).
Definition events_of (m : Fw unit) (g : Globals) : list Event := snd (m g).

(** The debounce guard of [loop] and the raw reading it takes. *)
Definition debounced (env : Env) (g : Globals) : bool :=
  ulong_sub (millis env) (last_sample_ms g) <? kDebounceDelayMs.

Definition raw_pressed (cfg : Config) (env : Env) : bool :=
  digitalRead env (kButtonPin cfg) =? LOW.

(** One iteration seen as [tick(raw_input, now)]: the button pin reads LOW
    when pressed (it is wired with a pull-up). *)
Definition sample (raw : bool) (now : Z) : Env :=
  {| millis := now; digitalRead := fun _ => if raw then LOW else HIGH |}.

(** The calls made on an accepted state change. *)
Definition edge_events (cfg : Config) (pressed : bool) : list Event :=
  [ DigitalWrite (kStatusLedPin cfg) (if pressed then HIGH else LOW);
    SerialPrint (PStr "Button state: ");
    SerialPrintln (Some (PStr (if pressed then "pressed" else "released"))) ].

(* ------------------------------------------------------------------------- *)
(** ** Observing a trace *)

(** Lines completed on the serial channel, each as the items printed on it. *)
Fixpoint lines_from (pending : list Printable) (tr : list Event)
  : list (list Printable) :=
  match tr with
  | [] => []
  | SerialPrint p :: tr' => lines_from (pending ++ [p]) tr'
  | SerialPrintln (Some p) :: tr' => (pending ++ [p]) :: lines_from [] tr'
  | SerialPrintln None :: tr' => pending :: lines_from [] tr'
  | _ :: tr' => lines_from pending tr'
  end.

Definition serial_lines (tr : list Event) : list (list Printable) :=
  lines_from [] tr.

(** Digital output writes, in order. *)
Definition output_writes (tr : list Event) : list (Z * Z) :=
  flat_map (fun e => match e with
                     | DigitalWrite pin level => [(pin, level)]
                     | _ => []
                     end) tr.

(** Level last written to [pin], if any. *)
Definition pin_level (pin : Z) (tr : list Event) : option Z :=
  fold_left (fun acc e => match e with
                          | DigitalWrite q level =>
                              if q =? pin then Some level else acc
                          | _ => acc
                          end) tr None.

Section LineText.

(** How [Serial.print(float)] formats its argument is up to the core. *)
Variable fmt_float : float -> string.

Definition item_text (p : Printable) : string :=
  match p with
  | PStr s => s
  | PFloat f => fmt_float f
  end.

Definition line_text (line : list Printable) : string :=
  fold_right (fun p acc => (item_text p ++ acc)%string) EmptyString line.

End LineText.

(* ------------------------------------------------------------------------- *)
(** ** The configuration relations asserted in [test/test_config.cpp] *)

Definition f1_5 : float := Float32.lit 12582912 (-23).  (* 1.5f *)
Definition f3_6 : float := Float32.lit 15099494 (-22).  (* 3.6f *)

(** [test_audio_limits_monotonic], the ordering part. *)
Definition spl_ok (cfg : Config) : bool :=
  Float32.le (kRecommendedMaxSplDb cfg) (kAbsoluteMaxSplDb cfg).

(** [test_mic_bias_bounds]. *)
Definition mic_bias_ok (cfg : Config) : bool :=
  Float32.ge (kMicBiasMinVolts cfg) f1_5
  && Float32.le (kMicBiasMaxVolts cfg) f3_6
  && Float32.lt (kMicBiasMinVolts cfg) (kMicBiasMaxVolts cfg).

(** [test_battery_thresholds]. *)
Definition battery_ok (cfg : Config) : bool :=
  Float32.lt (kBatteryCriticalVolts cfg) (kBatteryLowVolts cfg)
  && Float32.le (kBatteryLowVolts cfg) (kBatteryNominalVolts cfg).

(** The one line [enforce_audio_safety] can print. *)
Definition spl_warning_event : Event := SerialPrintln (Some (PStr spl_warning)).

(** Replace the mic-bias and battery constants, keep everything else. *)
Definition with_bias_and_battery (cfg : Config)
  (bias_min bias_max nominal low critical : float) : Config :=
  {| kFirmwareVersion := kFirmwareVersion cfg;
     kSerialBaudRate := kSerialBaudRate cfg;
     kStatusLedPin := kStatusLedPin cfg;
     kButtonPin := kButtonPin cfg;
     kRecommendedMaxSplDb := kRecommendedMaxSplDb cfg;
     kAbsoluteMaxSplDb := kAbsoluteMaxSplDb cfg;
     kMicBiasMinVolts := bias_min;
     kMicBiasMaxVolts := bias_max;
     kBatteryNominalVolts := nominal;
     kBatteryLowVolts := low;
     kBatteryCriticalVolts := critical |}.

(** Replace the two SPL limits, keep everything else. *)
Definition with_spl (cfg : Config) (recommended absolute : float) : Config :=
  {| kFirmwareVersion := kFirmwareVersion cfg;
     kSerialBaudRate := kSerialBaudRate cfg;
     kStatusLedPin := kStatusLedPin cfg;
     kButtonPin := kButtonPin cfg;
     kRecommendedMaxSplDb := recommended;
     kAbsoluteMaxSplDb := absolute;
     kMicBiasMinVolts := kMicBiasMinVolts cfg;
     kMicBiasMaxVolts := kMicBiasMaxVolts cfg;
     kBatteryNominalVolts := kBatteryNominalVolts cfg;
     kBatteryLowVolts := kBatteryLowVolts cfg;
     kBatteryCriticalVolts := kBatteryCriticalVolts cfg |}.

Definition f95_0 : float := Float32.lit 12451840 (-17).  (* 95.0f *)

(** Mic-bias bounds swapped and battery low above nominal; SPL untouched. *)
Definition miswired : Config :=
  with_bias_and_battery sigma f3_3 f1_8 f3_3 f3_7 f3_0.

(** Scenario B: recommended 95 dB above the absolute 94 dB. *)
Definition too_loud : Config := with_spl sigma f95_0 f94_0.

(** The three ways an iteration can go. *)
Variant loop_outcome (cfg : Config) (env : Env) (g : Globals)
  : Globals -> list Event -> Prop :=
| Ignored :
    debounced env g = true ->
    loop_outcome cfg env g g []
| Steady :
    debounced env g = false ->
    raw_pressed cfg env = button_state g ->
    loop_outcome cfg env g
      {| last_sample_ms := millis env; button_state := button_state g |} []
| Edge :
    debounced env g = false ->
    raw_pressed cfg env = negb (button_state g) ->
    loop_outcome cfg env g
      {| last_sample_ms := millis env; button_state := raw_pressed cfg env |}
      (edge_events cfg (raw_pressed cfg env)).

(** The calls [setup] makes before the safety check, and those of
    [report_safety_callouts] after it. *)
Definition banner_events (cfg : Config) : list Event :=
  [ PinModeSet (kStatusLedPin cfg) OUTPUT;
    PinModeSet (kButtonPin cfg) INPUT_PULLUP;
    DigitalWrite (kStatusLedPin cfg) LOW;
    SerialBegin (kSerialBaudRate cfg);
    SerialPrintln None;
    SerialPrint (PStr "Sigma firmware ready (v");
    SerialPrint (PStr (kFirmwareVersion cfg));
    SerialPrintln (Some (PStr ")"));
    SerialPrintln (Some (PStr "Press the button to toggle the status LED")) ].

Definition callout_events (cfg : Config) : list Event :=
  events_of (report_safety_callouts cfg) initial_globals.

Definition warning_events (cfg : Config) : list Event :=
  if Float32.gt (kRecommendedMaxSplDb cfg) (kAbsoluteMaxSplDb cfg)
  then [spl_warning_event] else [].

(** The status LED shows the debounced state. *)
Definition led_mirrors (cfg : Config) (sys : System) : Prop :=
  pin_level (kStatusLedPin cfg) (trace sys)
  = Some (if button_state (globals sys) then HIGH else LOW).

(** Globals shortly before the millisecond clock wraps. *)
Definition near_wrap : Globals :=
  {| last_sample_ms := 4294967290; button_state := false |}.

(* ------------------------------------------------------------------------- *)
(** ** [firmware/src/main.cpp]: the earlier firmware, configured by macros *)

Module legacy.

(** The three macros, each overridable at build time. *)
Record Macros : Type := {
  SIGMA_STATUS_LED : Z;
  SIGMA_BUTTON_PIN : Z;
  SIGMA_FIRMWARE_VERSION : string
}.

(** The [#ifndef] defaults. *)
Definition defaults : Macros := {|
  SIGMA_STATUS_LED := 2;
  SIGMA_BUTTON_PIN := 0;
  SIGMA_FIRMWARE_VERSION := "0.1.0"
|}.

Definition setup (m : Macros) : Fw unit :=
  pinMode (SIGMA_STATUS_LED m) OUTPUT ;;
  pinMode (SIGMA_BUTTON_PIN m) INPUT_PULLUP ;;
  digitalWrite (SIGMA_STATUS_LED m) LOW ;;
  Serial_begin 115200 ;;
  Serial_println0 ;;
  Serial_print (PStr "Sigma firmware ready (v") ;;
  Serial_print (PStr (SIGMA_FIRMWARE_VERSION m)) ;;
  Serial_println (PStr ")") ;;
  Serial_println (PStr "Press the button to toggle the status LED").

Definition loop (m : Macros) (env : Env) : Fw unit :=
  let now := millis env in
  last <- get_last_sample_ms ;;
  if ulong_sub now last <? kDebounceDelayMs then ret tt
  else
    set_last_sample_ms now ;;
    let pressed := digitalRead env (SIGMA_BUTTON_PIN m) =? LOW in
    current <- get_button_state ;;
    if negb (Bool.eqb pressed current) then
      set_button_state pressed ;;
      digitalWrite (SIGMA_STATUS_LED m) (if pressed then HIGH else LOW) ;;
      Serial_print (PStr "Button state: ") ;;
      Serial_println (PStr (if pressed then "pressed" else "released"))
    else ret tt.

End legacy.

(** The macro values a [config.h] configuration corresponds to. *)
Definition macros_of (cfg : Config) : legacy.Macros :=
  {| legacy.SIGMA_STATUS_LED := kStatusLedPin cfg;
     legacy.SIGMA_BUTTON_PIN := kButtonPin cfg;
     legacy.SIGMA_FIRMWARE_VERSION := kFirmwareVersion cfg |}.

(* ------------------------------------------------------------------------- *)
(** ** Vocabulary for statements about runs *)

(** [b], [negb b], [b], ... ([n] values). *)
Fixpoint alternate (b : bool) (n : nat) : list bool :=
  match n with
  | O => []
  | S k => b :: alternate (negb b) k
  end.

Definition led_level_of (pressed : bool) : Z := if pressed then HIGH else LOW.

Definition notification_of (pressed : bool) : string :=
  if pressed then "Button state: pressed" else "Button state: released".

(** Clock readings that never go back and stay below the wrap, from [t0] on. *)
Fixpoint clock_advances (t0 : Z) (envs : list Env) : Prop :=
  match envs with
  | [] => True
  | env :: rest =>
      t0 <= millis env < ulong_modulus /\ clock_advances (millis env) rest
  end.

Definition is_nan (f : float) : bool :=
  match f with
  | S754_nan => true
  | _ => false
  end.

Definition is_serial_begin (e : Event) : bool :=
  match e with
  | SerialBegin _ => true
  | _ => false
  end.

Definition is_serial_output (e : Event) : bool :=
  match e with
  | SerialPrint _ | SerialPrintln _ => true
  | _ => false
  end.

Definition is_pin_mode (e : Event) : bool :=
  match e with
  | PinModeSet _ _ => true
  | _ => false
  end.

(** Replace the constants [report_safety_callouts] does not print. *)
Definition with_unprinted (cfg : Config) (absolute nominal critical : float)
  : Config :=
  {| kFirmwareVersion := kFirmwareVersion cfg;
     kSerialBaudRate := kSerialBaudRate cfg;
     kStatusLedPin := kStatusLedPin cfg;
     kButtonPin := kButtonPin cfg;
     kRecommendedMaxSplDb := kRecommendedMaxSplDb cfg;
     kAbsoluteMaxSplDb := absolute;
     kMicBiasMinVolts := kMicBiasMinVolts cfg;
     kMicBiasMaxVolts := kMicBiasMaxVolts cfg;
     kBatteryNominalVolts := nominal;
     kBatteryLowVolts := kBatteryLowVolts cfg;
     kBatteryCriticalVolts := critical |}.

Definition f100_0 : float := Float32.lit 13107200 (-17).  (* 100.0f *)
Definition f2_5 : float := Float32.lit 10485760 (-22).    (* 2.5f *)

(** Case analysis on every integer and mantissa comparison in sight. *)
Ltac order_cases :=
  repeat match goal with
  | H : context [ (?x ?= ?y)%Z ] |- _ =>
      destruct (Z.compare_spec x y); try discriminate H
  | |- context [ (?x ?= ?y)%Z ] => destruct (Z.compare_spec x y)
  | H : context [ Pos.compare_cont Eq ?x ?y ] |- _ =>
      change (Pos.compare_cont Eq x y) with (Pos.compare x y) in H;
      destruct (Pos.compare_spec x y); try discriminate H
  | |- context [ Pos.compare_cont Eq ?x ?y ] =>
      change (Pos.compare_cont Eq x y) with (Pos.compare x y);
      destruct (Pos.compare_spec x y)
  end.

(* ------------------------------------------------------------------------- *)
(** ** Sanity checks on the model *)

Example sigma_floats_valid :
  forallb Float32.valid
    [f85_0; f94_0; f95_0; f1_8; f3_3; f3_7; f3_0; f1_5; f3_6] = true.
Proof. vm_compute. reflexivity. Qed.

Example sigma_passes_tests :
  spl_ok sigma = true /\ mic_bias_ok sigma = true /\ battery_ok sigma = true.
Proof. repeat split; vm_compute; reflexivity. Qed.

Example boot_sigma_lines :
  map (line_text (fun _ => "#")) (serial_lines (trace (boot sigma))) =
  [ "";
    "Sigma firmware ready (v0.1.0)";
    "Press the button to toggle the status LED";
    "[safety] Maintain SPL under # dB for extended sessions (absolute max 94 dB).";
    "[safety] Keep mic bias between # V and # V.";
    "[safety] Stop use if battery drops below # V (critical at 3.0 V)." ]%string.
Proof. vm_compute. reflexivity. Qed.

(* ------------------------------------------------------------------------- *)
(** ** Comparison of floats *)

Lemma SFcompare_swap (a b : float) :
  SFcompare b a = option_map CompOpp (SFcompare a b).
Proof.
  destruct a as [sa | sa | | sa ma ea], b as [sb | sb | | sb mb eb];
    cbn; try destruct sa; try destruct sb; try reflexivity.
  all: rewrite (Z.compare_antisym eb ea);
    destruct (eb ?= ea); cbn; try reflexivity;
    rewrite (Pos.compare_cont_antisym ma mb Eq); reflexivity.
Qed.

Lemma le_not_gt (a b : float) :
  Float32.le a b = true -> Float32.gt a b = false.
Proof.
  unfold Float32.le, Float32.gt, SFleb, SFltb.
  rewrite (SFcompare_swap a b).
  destruct (SFcompare a b) as [[ | | ] | ]; cbn; congruence.
Qed.

(* ------------------------------------------------------------------------- *)
(** ** Unsigned arithmetic *)

Lemma ulong_modulus_pos : 0 < ulong_modulus.
Proof. reflexivity. Qed.

Lemma ulong_sub_range (a b : Z) : is_ulong (ulong_sub a b).
Proof. apply Z.mod_pos_bound, ulong_modulus_pos. Qed.

(** After [d] milliseconds the wrapped clock reads [(last + d) mod 2^32], and
    the unsigned difference gives [d] back. *)
Lemma ulong_sub_elapsed (last d : Z) :
  0 <= d < ulong_modulus ->
  ulong_sub ((last + d) mod ulong_modulus) last = d.
Proof.
  intros Hd. unfold ulong_sub.
  rewrite Zminus_mod_idemp_l.
  replace (last + d - last) with d by lia.
  apply Z.mod_small. exact Hd.
Qed.

(* ------------------------------------------------------------------------- *)
(** ** What one [loop] iteration does *)

Lemma loop_ignored (cfg : Config) (env : Env) (g : Globals) :
  debounced env g = true -> loop cfg env g = (tt, g, []).
Proof.
  unfold debounced, loop, bind, get_last_sample_ms. cbn.
  intros ->. reflexivity.
Qed.

Lemma loop_steady (cfg : Config) (env : Env) (g : Globals) :
  debounced env g = false ->
  raw_pressed cfg env = button_state g ->
  loop cfg env g =
    (tt, {| last_sample_ms := millis env; button_state := button_state g |}, []).
Proof.
  unfold debounced, raw_pressed, loop, bind, get_last_sample_ms. cbn.
  intros -> ->. cbn. rewrite Bool.eqb_reflx. reflexivity.
Qed.

Lemma loop_edge (cfg : Config) (env : Env) (g : Globals) :
  debounced env g = false ->
  raw_pressed cfg env = negb (button_state g) ->
  loop cfg env g =
    (tt, {| last_sample_ms := millis env; button_state := raw_pressed cfg env |},
     edge_events cfg (raw_pressed cfg env)).
Proof.
  unfold debounced, raw_pressed, loop, bind, get_last_sample_ms, edge_events.
  cbn. intros -> E. rewrite E. cbn.
  destruct (button_state g); reflexivity.
Qed.

Lemma loop_cases (cfg : Config) (env : Env) (g : Globals) :
  loop_outcome cfg env g
    (state_after (loop cfg env) g) (events_of (loop cfg env) g).
Proof.
  unfold state_after, events_of.
  destruct (debounced env g) eqn:D.
  - rewrite (loop_ignored cfg env g D). now constructor.
  - destruct (Bool.eqb (raw_pressed cfg env) (button_state g)) eqn:E.
    + apply Bool.eqb_prop in E.
      rewrite (loop_steady cfg env g D E). now constructor.
    + apply Bool.eqb_false_iff in E.
      assert (E' : raw_pressed cfg env = negb (button_state g))
        by (destruct (raw_pressed cfg env), (button_state g); cbn; congruence).
      rewrite (loop_edge cfg env g D E'). now constructor.
Qed.

Lemma exec_loop (cfg : Config) (env : Env) (sys : System) :
  exec (loop cfg env) sys =
    {| globals := state_after (loop cfg env) (globals sys);
       trace := trace sys ++ events_of (loop cfg env) (globals sys) |}.
Proof.
  unfold exec, state_after, events_of.
  destruct (loop cfg env (globals sys)) as [[u g] t]. reflexivity.
Qed.

(* ------------------------------------------------------------------------- *)
(** ** The startup safety check *)

Lemma enforce_audio_safety_eq (cfg : Config) (g : Globals) :
  enforce_audio_safety cfg g =
    (tt, g,
     if Float32.gt (kRecommendedMaxSplDb cfg) (kAbsoluteMaxSplDb cfg)
     then [spl_warning_event] else []).
Proof.
  unfold enforce_audio_safety.
  destruct (Float32.gt _ _); reflexivity.
Qed.

(** C3.  With [recommended <= absolute] (equality included) the startup check
    reports nothing, and with [recommended > absolute] it reports exactly one
    SPL violation: the single warning line, and nothing else. *)
Theorem enforce_audio_safety_spl (cfg : Config) (g : Globals) :
  (Float32.le (kRecommendedMaxSplDb cfg) (kAbsoluteMaxSplDb cfg) = true ->
   enforce_audio_safety cfg g = (tt, g, []))
  /\
  (Float32.gt (kRecommendedMaxSplDb cfg) (kAbsoluteMaxSplDb cfg) = true ->
   enforce_audio_safety cfg g = (tt, g, [spl_warning_event])
   /\ serial_lines (events_of (enforce_audio_safety cfg) g)
      = [[PStr spl_warning]]).
Proof.
  split; intros H.
  - rewrite enforce_audio_safety_eq, (le_not_gt _ _ H). reflexivity.
  - unfold events_of. rewrite enforce_audio_safety_eq, H. split; reflexivity.
Qed.

Lemma enforce_audio_safety_spl_witness :
  enforce_audio_safety sigma initial_globals = (tt, initial_globals, [])
  /\ enforce_audio_safety (with_spl sigma f94_0 f94_0) initial_globals
     = (tt, initial_globals, [])
  /\ enforce_audio_safety too_loud initial_globals
     = (tt, initial_globals, [spl_warning_event]).
Proof.
  split; [ | split ].
  - apply (proj1 (enforce_audio_safety_spl sigma initial_globals)).
    vm_compute. reflexivity.
  - apply (proj1 (enforce_audio_safety_spl (with_spl sigma f94_0 f94_0)
                    initial_globals)).
    vm_compute. reflexivity.
  - apply (proj2 (enforce_audio_safety_spl too_loud initial_globals)).
    vm_compute. reflexivity.
Defined.

(** C1, as stated, fails: with the mic-bias bounds swapped and the battery
    low threshold above nominal, the startup check reports nothing at all. *)
Lemma miswired_not_reported :
  mic_bias_ok miswired = false
  /\ Float32.ge (kMicBiasMinVolts miswired) (kMicBiasMaxVolts miswired) = true
  /\ battery_ok miswired = false
  /\ Float32.gt (kBatteryLowVolts miswired) (kBatteryNominalVolts miswired) = true
  /\ enforce_audio_safety miswired initial_globals = (tt, initial_globals, []).
Proof. repeat split; vm_compute; reflexivity. Qed.

(** C1, amended.  The startup check looks at the two SPL limits only.  For
    every configuration, whatever its mic-bias and battery constants (whether
    or not they satisfy their relations), the check changes no state, every
    line it prints is the SPL warning, and replacing the mic-bias and battery
    constants by any others leaves its result the same: no mic-bias and no
    battery violation is ever reported. *)
Theorem enforce_audio_safety_spl_only
  (cfg : Config) (g : Globals) (bias_min bias_max nominal low critical : float) :
  state_after (enforce_audio_safety cfg) g = g
  /\ (forall e, In e (events_of (enforce_audio_safety cfg) g) ->
                e = spl_warning_event)
  /\ enforce_audio_safety
       (with_bias_and_battery cfg bias_min bias_max nominal low critical) g
     = enforce_audio_safety cfg g.
Proof.
  unfold state_after, events_of.
  rewrite !enforce_audio_safety_eq. cbn [fst snd with_bias_and_battery
    kRecommendedMaxSplDb kAbsoluteMaxSplDb].
  repeat split.
  intros e. destruct (Float32.gt _ _); cbn; intuition congruence.
Qed.

Lemma enforce_audio_safety_spl_only_witness :
  In spl_warning_event (events_of (enforce_audio_safety too_loud) initial_globals)
  /\ spl_warning_event = spl_warning_event
  /\ enforce_audio_safety miswired initial_globals
     = enforce_audio_safety sigma initial_globals.
Proof.
  assert (H : In spl_warning_event
                (events_of (enforce_audio_safety too_loud) initial_globals))
    by (left; reflexivity).
  split; [ exact H | split ].
  - exact (proj1 (proj2 (enforce_audio_safety_spl_only too_loud initial_globals
                           f3_3 f1_8 f3_3 f3_7 f3_0)) spl_warning_event H).
  - exact (proj2 (proj2 (enforce_audio_safety_spl_only sigma initial_globals
                           f3_3 f1_8 f3_3 f3_7 f3_0))).
Defined.

(* ------------------------------------------------------------------------- *)
(** ** The debounce guard *)

Lemma loop_within_window (cfg : Config) (env : Env) (g : Globals) :
  ulong_sub (millis env) (last_sample_ms g) < kDebounceDelayMs ->
  loop cfg env g = (tt, g, []).
Proof.
  intros H. apply loop_ignored. apply Z.ltb_lt. exact H.
Qed.

Lemma loop_past_window (cfg : Config) (env : Env) (g : Globals) :
  kDebounceDelayMs <= ulong_sub (millis env) (last_sample_ms g) ->
  last_sample_ms (state_after (loop cfg env) g) = millis env.
Proof.
  intros H.
  assert (D : debounced env g = false) by (apply Z.ltb_ge; exact H).
  destruct (loop_cases cfg env g); [ congruence | reflexivity | reflexivity ].
Qed.

(** C6.  While [now - last_sample_ms < kDebounceDelayMs] (in [unsigned long]
    arithmetic) an iteration returns at once: both globals keep their values
    and no call is made, so no output write and no notification.  Otherwise
    [last_sample_ms] becomes [now]. *)
Theorem loop_guard (cfg : Config) (env : Env) (g : Globals) :
  (ulong_sub (millis env) (last_sample_ms g) < kDebounceDelayMs ->
   loop cfg env g = (tt, g, [])
   /\ last_sample_ms (state_after (loop cfg env) g) = last_sample_ms g
   /\ button_state (state_after (loop cfg env) g) = button_state g
   /\ output_writes (events_of (loop cfg env) g) = []
   /\ serial_lines (events_of (loop cfg env) g) = [])
  /\
  (kDebounceDelayMs <= ulong_sub (millis env) (last_sample_ms g) ->
   last_sample_ms (state_after (loop cfg env) g) = millis env).
Proof.
  split; intros H.
  - unfold state_after, events_of. rewrite (loop_within_window cfg env g H).
    repeat split.
  - apply loop_past_window. exact H.
Qed.

Lemma loop_guard_witness :
  loop sigma (sample true 5) initial_globals = (tt, initial_globals, [])
  /\ last_sample_ms (state_after (loop sigma (sample false 20)) initial_globals)
     = 20.
Proof.
  split.
  - apply (proj1 (loop_guard sigma (sample true 5) initial_globals)).
    vm_compute. reflexivity.
  - apply (proj2 (loop_guard sigma (sample false 20) initial_globals)).
    vm_compute. discriminate.
Defined.

(** C10.  The guard is [(now - last_sample_ms) mod 2^32 < 10]; the difference
    always lies in [0, 2^32).  If [d < 2^32] milliseconds have passed since the
    last accepted sample, so that the 32-bit clock reads
    [(last_sample_ms + d) mod 2^32] (possibly wrapped below [last_sample_ms]),
    the difference is [d] itself: the iteration is ignored exactly when
    [d < 10], and from [d = 10] on sampling resumes. *)
Theorem loop_guard_modular (cfg : Config) (env : Env) (g : Globals) (d : Z) :
  0 <= d < ulong_modulus ->
  millis env = (last_sample_ms g + d) mod ulong_modulus ->
  debounced env g = ((millis env - last_sample_ms g) mod 2 ^ 32 <? 10)
  /\ 0 <= ulong_sub (millis env) (last_sample_ms g) < 2 ^ 32
  /\ ulong_sub (millis env) (last_sample_ms g) = d
  /\ (d < 10 -> loop cfg env g = (tt, g, []))
  /\ (10 <= d -> last_sample_ms (state_after (loop cfg env) g) = millis env).
Proof.
  intros Hd Hnow.
  assert (E : ulong_sub (millis env) (last_sample_ms g) = d)
    by (rewrite Hnow; apply ulong_sub_elapsed; exact Hd).
  split; [ reflexivity | ].
  split; [ apply ulong_sub_range | ].
  split; [ exact E | ].
  split; intros H.
  - apply loop_within_window. rewrite E. exact H.
  - apply loop_past_window. rewrite E. exact H.
Qed.

Lemma loop_guard_modular_witness :
  loop sigma (sample true 3) near_wrap = (tt, near_wrap, [])
  /\ last_sample_ms (state_after (loop sigma (sample true 4)) near_wrap) = 4.
Proof.
  split.
  - refine (proj1 (proj2 (proj2 (proj2
      (loop_guard_modular sigma (sample true 3) near_wrap 9 _ _)))) _).
    + vm_compute. split; [ discriminate | reflexivity ].
    + vm_compute. reflexivity.
    + vm_compute. reflexivity.
  - refine (proj2 (proj2 (proj2 (proj2
      (loop_guard_modular sigma (sample true 4) near_wrap 10 _ _)))) _).
    + vm_compute. split; [ discriminate | reflexivity ].
    + vm_compute. reflexivity.
    + vm_compute. discriminate.
Defined.

(* ------------------------------------------------------------------------- *)
(** ** Two iterations close together *)

(** C4, as stated, fails: from the initial state, iterations at [now = 5] and
    [now = 12] with the button held are 7 ms apart, yet the second one writes
    the LED and prints a notification, because the first was ignored and the
    guard measures from the last accepted sample (time 0). *)
Lemma close_second_iteration_writes :
  ulong_sub 12 5 < kDebounceDelayMs
  /\ loop sigma (sample true 5) initial_globals = (tt, initial_globals, [])
  /\ output_writes (events_of (loop sigma (sample true 12)) initial_globals)
     = [(2, HIGH)]
  /\ serial_lines (events_of (loop sigma (sample true 12)) initial_globals)
     = [[PStr "Button state: "; PStr "pressed"]].
Proof. repeat split. Qed.

(** C4, amended.  For every controller state and every two readings taken
    less than the debounce interval apart, at most one of the two iterations
    changes the state (and at most one makes any call); and whenever the first
    iteration was sampled (passed the guard), the second leaves the state
    unchanged, writes no output and prints no notification. *)
Theorem loop_twice_close (cfg : Config) (e1 e2 : Env) (g : Globals) :
  ulong_sub (millis e2) (millis e1) < kDebounceDelayMs ->
  let g1 := state_after (loop cfg e1) g in
  let g2 := state_after (loop cfg e2) g1 in
  let t1 := events_of (loop cfg e1) g in
  let t2 := events_of (loop cfg e2) g1 in
  (button_state g1 = button_state g \/ button_state g2 = button_state g1)
  /\ (t1 = [] \/ t2 = [])
  /\ (debounced e1 g = false ->
      g2 = g1 /\ t2 = [] /\ output_writes t2 = [] /\ serial_lines t2 = []).
Proof.
  intros Hclose g1 g2 t1 t2.
  assert (Second : last_sample_ms g1 = millis e1 -> g2 = g1 /\ t2 = []).
  { intros Hlast. subst g2 t2. unfold state_after, events_of.
    rewrite (loop_ignored cfg e2 g1); [ split; reflexivity | ].
    unfold debounced. rewrite Hlast. apply Z.ltb_lt. exact Hclose. }
  assert (Quiet : g2 = g1 /\ t2 = [] ->
                  g2 = g1 /\ t2 = [] /\ output_writes t2 = []
                  /\ serial_lines t2 = []).
  { intros [Hg Ht]. rewrite Ht. repeat split. exact Hg. }
  clearbody g2 t2. subst g1 t1.
  destruct (loop_cases cfg e1 g) as [D | D E | D E].
  - split; [ left; reflexivity | ].
    split; [ left; reflexivity | congruence ].
  - specialize (Quiet (Second eq_refl)).
    split; [ left; reflexivity | ].
    split; [ left; reflexivity | intros _; exact Quiet ].
  - specialize (Quiet (Second eq_refl)).
    destruct Quiet as [Hg [Ht Q]].
    split; [ right; rewrite Hg; reflexivity | ].
    split; [ right; exact Ht | ].
    intros _. split; [ exact Hg | split; [ exact Ht | exact Q ] ].
Qed.

Lemma loop_twice_close_witness :
  ulong_sub (millis (sample false 27)) (millis (sample true 20))
  < kDebounceDelayMs
  /\ debounced (sample true 20) initial_globals = false
  /\ state_after (loop sigma (sample false 27))
       (state_after (loop sigma (sample true 20)) initial_globals)
     = state_after (loop sigma (sample true 20)) initial_globals
  /\ events_of (loop sigma (sample false 27))
       (state_after (loop sigma (sample true 20)) initial_globals) = [].
Proof.
  assert (H : ulong_sub (millis (sample false 27)) (millis (sample true 20))
              < kDebounceDelayMs) by (vm_compute; reflexivity).
  pose proof (loop_twice_close sigma (sample true 20) (sample false 27)
                initial_globals H) as P.
  cbv zeta in P.
  destruct P as [_ [_ P]].
  destruct (P eq_refl) as [Hg [Ht _]].
  split; [ exact H | split; [ reflexivity | split; assumption ] ].
Defined.

(* ------------------------------------------------------------------------- *)
(** ** Runs of iterations *)

Lemma run_cons (cfg : Config) (env : Env) (envs : list Env) (sys : System) :
  run cfg (env :: envs) sys = run cfg envs (exec (loop cfg env) sys).
Proof. reflexivity. Qed.

(** Once the debounced state equals the raw value, readings of that value
    change nothing observable. *)
Lemma run_steady (cfg : Config) (raw : bool) (envs : list Env) :
  Forall (fun env => raw_pressed cfg env = raw) envs ->
  forall sys,
    button_state (globals sys) = raw ->
    trace (run cfg envs sys) = trace sys
    /\ button_state (globals (run cfg envs sys)) = raw.
Proof.
  induction 1 as [ | env envs Henv _ IH ]; intros sys Hst.
  - split; [ reflexivity | exact Hst ].
  - rewrite run_cons, exec_loop.
    destruct (loop_cases cfg env (globals sys)) as [D | D E | D E].
    + rewrite app_nil_r. destruct sys as [g tr]. apply IH. exact Hst.
    + rewrite app_nil_r.
      destruct (IH {| globals := {| last_sample_ms := millis env;
                                    button_state := button_state (globals sys) |};
                      trace := trace sys |} Hst) as [Ht Hb].
      split; assumption.
    + exfalso. rewrite Henv, Hst in E. destruct raw; discriminate.
Qed.

(** A run of readings of one value makes at most one state change, into that
    value. *)
Lemma run_single_edge (cfg : Config) (raw : bool) (envs : list Env) :
  Forall (fun env => raw_pressed cfg env = raw) envs ->
  forall g,
    let sys := run cfg envs {| globals := g; trace := [] |} in
    (trace sys = [] /\ button_state (globals sys) = button_state g)
    \/ (trace sys = edge_events cfg raw /\ button_state (globals sys) = raw
        /\ button_state g = negb raw).
Proof.
  induction 1 as [ | env envs Henv Hrest IH ]; intros g; cbv zeta.
  - left. split; reflexivity.
  - rewrite run_cons, exec_loop. cbn [globals trace app].
    destruct (loop_cases cfg env g) as [D | D E | D E].
    + apply IH.
    + apply (IH {| last_sample_ms := millis env;
                   button_state := button_state g |}).
    + right. rewrite Henv in *.
      destruct (run_steady cfg raw envs Hrest
                  {| globals := {| last_sample_ms := millis env;
                                   button_state := raw |};
                     trace := edge_events cfg raw |} eq_refl) as [Ht Hb].
      split; [ exact Ht | split; [ exact Hb | ] ].
      rewrite E. apply negb_involutive_reverse.
Qed.

(** What one iteration prints and writes, by whether it changed the state. *)
Lemma loop_reports_edges (cfg : Config) (env : Env) (g : Globals) :
  let g' := state_after (loop cfg env) g in
  let t := events_of (loop cfg env) g in
  if Bool.eqb (button_state g') (button_state g)
  then t = []
  else t = edge_events cfg (button_state g').
Proof.
  cbv zeta.
  destruct (loop_cases cfg env g) as [D | D E | D E]; cbn [button_state].
  - rewrite Bool.eqb_reflx. reflexivity.
  - rewrite Bool.eqb_reflx. reflexivity.
  - rewrite E. destruct (button_state g); reflexivity.
Qed.

(** C5.  In a run of iterations that all read the same raw value (whatever
    their spacing, so in particular when spaced beyond the debounce interval):
    if the debounced state already is that value, nothing is written or
    printed and the state stays; from any state, the run makes no call at all
    or exactly the calls of one state change into that value.  Every single
    iteration prints one line, "Button state: pressed" or
    "Button state: released", and writes the LED once when it changes the
    state, and prints and writes nothing otherwise. *)
Theorem loop_edge_triggered
  (cfg : Config) (raw : bool) (envs : list Env) (g : Globals)
  (fmt_float : float -> string) :
  Forall (fun env => raw_pressed cfg env = raw) envs ->
  let sys := run cfg envs {| globals := g; trace := [] |} in
  (button_state g = raw ->
   trace sys = [] /\ button_state (globals sys) = raw)
  /\ (trace sys = []
      \/ (trace sys = edge_events cfg raw
          /\ button_state (globals sys) = raw))
  /\ (forall env g0,
        let g1 := state_after (loop cfg env) g0 in
        let t := events_of (loop cfg env) g0 in
        (button_state g1 = button_state g0 ->
         output_writes t = [] /\ serial_lines t = [])
        /\ (button_state g1 <> button_state g0 ->
            output_writes t
            = [(kStatusLedPin cfg, if button_state g1 then HIGH else LOW)]
            /\ map (line_text fmt_float) (serial_lines t)
               = [if button_state g1
                  then "Button state: pressed"
                  else "Button state: released"])).
Proof.
  intros Hraw sys. split; [ | split ].
  - intros Hst.
    apply (run_steady cfg raw envs Hraw {| globals := g; trace := [] |} Hst).
  - destruct (run_single_edge cfg raw envs Hraw g) as [[Ht _] | [Ht [Hb _]]].
    + left. exact Ht.
    + right. split; assumption.
  - intros env g0. cbv zeta.
    pose proof (loop_reports_edges cfg env g0) as R. cbv zeta in R.
    destruct (Bool.eqb _ _) eqn:E.
    + apply Bool.eqb_prop in E. rewrite R.
      split; [ split; reflexivity | congruence ].
    + apply Bool.eqb_false_iff in E. rewrite R.
      split; [ congruence | ].
      intros _. destruct (button_state _); split; reflexivity.
Qed.

Lemma loop_edge_triggered_witness :
  Forall (fun env => raw_pressed sigma env = true)
    [sample true 10; sample true 25; sample true 40]
  /\ trace (run sigma [sample true 10; sample true 25; sample true 40]
              {| globals := initial_globals; trace := [] |})
     = edge_events sigma true.
Proof.
  assert (H : Forall (fun env => raw_pressed sigma env = true)
                [sample true 10; sample true 25; sample true 40])
    by (repeat constructor).
  split; [ exact H | ].
  destruct (loop_edge_triggered sigma true
              [sample true 10; sample true 25; sample true 40]
              initial_globals (fun _ => EmptyString) H) as [_ [[Ht | [Ht _]] _]].
  - vm_compute in Ht. discriminate Ht.
  - exact Ht.
Defined.

(* ------------------------------------------------------------------------- *)
(** ** Scenario: press at 0, held at 5, released at 20 *)

(** C2, as stated, fails: the iteration at [t = 0] is itself inside the first
    debounce window ([0 - 0 < 10]), so it is ignored, and the whole sequence
    prints no notification. *)
Lemma press_at_zero_ignored :
  exec (loop sigma (sample true 0)) power_on = power_on
  /\ button_state
       (globals (run sigma [sample true 0; sample true 5; sample false 20]
                   power_on)) = false
  /\ serial_lines
       (trace (run sigma [sample true 0; sample true 5; sample false 20]
                 power_on)) = [].
Proof. repeat split. Qed.

(** C2, amended.  From the initial state ([button_state = false],
    [last_sample_ms = 0]) with debounce interval 10, the sequence
    (true, 0), (true, 5), (false, 20) has its first two iterations ignored by
    the guard and the third sampled without a change (it reads released):
    no notification.  The same sequence one debounce interval later,
    (true, 10), (true, 15), (false, 30), goes to pressed with one
    notification, is ignored, and goes to released with one notification:
    2 in total. *)
Theorem scenario_press_release :
  run sigma [sample true 0] power_on = power_on
  /\ run sigma [sample true 0; sample true 5] power_on = power_on
  /\ run sigma [sample true 0; sample true 5; sample false 20] power_on
     = {| globals := {| last_sample_ms := 20; button_state := false |};
          trace := [] |}
  /\ run sigma [sample true 10] power_on
     = {| globals := {| last_sample_ms := 10; button_state := true |};
          trace := edge_events sigma true |}
  /\ run sigma [sample true 10; sample true 15] power_on
     = run sigma [sample true 10] power_on
  /\ run sigma [sample true 10; sample true 15; sample false 30] power_on
     = {| globals := {| last_sample_ms := 30; button_state := false |};
          trace := edge_events sigma true ++ edge_events sigma false |}
  /\ serial_lines
       (trace (run sigma [sample true 10; sample true 15; sample false 30]
                 power_on))
     = [ [PStr "Button state: "; PStr "pressed"];
         [PStr "Button state: "; PStr "released"] ].
Proof. repeat split. Qed.

(* ------------------------------------------------------------------------- *)
(** ** Startup *)

Lemma setup_eq (cfg : Config) (g : Globals) :
  setup cfg g
  = (tt, g, banner_events cfg ++ warning_events cfg ++ callout_events cfg).
Proof.
  unfold setup, bind, warning_events. cbn.
  rewrite enforce_audio_safety_eq.
  destruct (Float32.gt _ _); reflexivity.
Qed.

Lemma boot_eq (cfg : Config) :
  boot cfg
  = {| globals := initial_globals;
       trace := banner_events cfg ++ warning_events cfg ++ callout_events cfg |}.
Proof. unfold boot, exec. rewrite setup_eq. reflexivity. Qed.

(** Iterations do not look at the trace: a run started after any history is
    the run started from an empty trace, appended to that history. *)
Lemma run_trace_prefix (cfg : Config) (envs : list Env) :
  forall (g : Globals) (tr : list Event),
    run cfg envs {| globals := g; trace := tr |}
    = {| globals := globals (run cfg envs {| globals := g; trace := [] |});
         trace := tr ++ trace (run cfg envs {| globals := g; trace := [] |}) |}.
Proof.
  induction envs as [ | env envs IH ]; intros g tr.
  - cbn. rewrite app_nil_r. reflexivity.
  - rewrite !run_cons, !exec_loop. cbn [globals trace app].
    rewrite (IH _ (tr ++ _)).
    rewrite (IH _ (events_of (loop cfg env) g)).
    cbn [globals trace]. rewrite app_assoc. reflexivity.
Qed.

(** C7, as stated, fails in its parenthesis: [miswired] violates the mic-bias
    and the battery relations, and its startup prints no warning at all: the
    banner is followed at once by the threshold callouts. *)
Lemma miswired_boots_without_warning :
  mic_bias_ok miswired = false
  /\ battery_ok miswired = false
  /\ trace (boot miswired) = banner_events miswired ++ callout_events miswired
  /\ List.length (serial_lines (trace (boot miswired)))
     = List.length (serial_lines (trace (boot sigma))).
Proof. repeat split. Qed.

(** C7, amended.  For every configuration [setup] runs to its end and leaves
    the globals as initialised: the banner, then the SPL warning exactly once
    when [recommended > absolute] and no warning otherwise (no other relation
    is checked), then the callouts.  The iterations that follow run as they
    would from the initial state, and do not depend on any threshold. *)
Theorem setup_never_aborts
  (cfg : Config) (envs : list Env) (fmt_float : float -> string) :
  globals (boot cfg) = initial_globals
  /\ trace (boot cfg)
     = banner_events cfg ++ warning_events cfg ++ callout_events cfg
  /\ count_occ string_dec
       (map (line_text fmt_float) (serial_lines (trace (boot cfg))))
       spl_warning
     = (if Float32.gt (kRecommendedMaxSplDb cfg) (kAbsoluteMaxSplDb cfg)
        then 1%nat else 0%nat)
  /\ run cfg envs (boot cfg)
     = {| globals := globals (run cfg envs power_on);
          trace := trace (boot cfg) ++ trace (run cfg envs power_on) |}
  /\ (forall recommended absolute bias_min bias_max nominal low critical,
        run (with_bias_and_battery (with_spl cfg recommended absolute)
               bias_min bias_max nominal low critical) envs power_on
        = run cfg envs power_on).
Proof.
  rewrite boot_eq. cbn [globals trace].
  split; [ reflexivity | ].
  split; [ reflexivity | ].
  split; [ | split ].
  - unfold warning_events.
    destruct (Float32.gt _ _); vm_compute; reflexivity.
  - apply run_trace_prefix.
  - intros. reflexivity.
Qed.

(** C8.  The lines of the startup report, in order: an empty line; the
    firmware-ready line with the version; the usage hint; the SPL warning if
    one was detected and nothing otherwise; then the three callouts for the
    SPL, mic-bias and battery thresholds. *)
Theorem startup_report_order (cfg : Config) (fmt_float : float -> string) :
  map (line_text fmt_float) (serial_lines (trace (boot cfg)))
  = [ EmptyString;
      ("Sigma firmware ready (v" ++ kFirmwareVersion cfg ++ ")")%string;
      "Press the button to toggle the status LED" ]
    ++ map (line_text fmt_float) (serial_lines (warning_events cfg))
    ++ [ ("[safety] Maintain SPL under "
          ++ fmt_float (kRecommendedMaxSplDb cfg)
          ++ " dB for extended sessions (absolute max 94 dB).")%string;
         ("[safety] Keep mic bias between "
          ++ fmt_float (kMicBiasMinVolts cfg) ++ " V and "
          ++ fmt_float (kMicBiasMaxVolts cfg) ++ " V.")%string;
         ("[safety] Stop use if battery drops below "
          ++ fmt_float (kBatteryLowVolts cfg)
          ++ " V (critical at 3.0 V).")%string ]
  /\ (serial_lines (warning_events cfg) = []
      \/ serial_lines (warning_events cfg) = [[PStr spl_warning]])
  /\ List.length (serial_lines (warning_events cfg))
     = List.length (events_of (enforce_audio_safety cfg) initial_globals).
Proof.
  rewrite boot_eq. cbn [trace]. unfold events_of.
  rewrite enforce_audio_safety_eq. unfold warning_events.
  destruct (Float32.gt _ _).
  - split; [ reflexivity | split; [ right; reflexivity | reflexivity ] ].
  - split; [ reflexivity | split; [ left; reflexivity | reflexivity ] ].
Qed.

(* ------------------------------------------------------------------------- *)
(** ** The LED mirrors the debounced state *)

Lemma pin_level_app (pin : Z) (t1 t2 : list Event) :
  pin_level pin (t1 ++ t2)
  = match pin_level pin t2 with
    | Some level => Some level
    | None => pin_level pin t1
    end.
Proof.
  unfold pin_level. rewrite fold_left_app.
  generalize (fold_left
                (fun acc e => match e with
                              | DigitalWrite q level =>
                                  if q =? pin then Some level else acc
                              | _ => acc
                              end) t1 None).
  induction t2 as [ | e t2 IH ]; intros acc.
  - reflexivity.
  - cbn [fold_left]. rewrite IH. rewrite (IH (match e with
                                               | DigitalWrite q level =>
                                                   if q =? pin then Some level
                                                   else None
                                               | _ => None
                                               end)).
    destruct (fold_left _ t2 None); [ reflexivity | ].
    destruct e as [ | q level | | | ]; try reflexivity.
    destruct (q =? pin); reflexivity.
Qed.

Lemma pin_level_edge (cfg : Config) (pressed : bool) :
  pin_level (kStatusLedPin cfg) (edge_events cfg pressed)
  = Some (if pressed then HIGH else LOW).
Proof.
  unfold pin_level, edge_events. cbn. rewrite Z.eqb_refl. reflexivity.
Qed.

Lemma boot_led_mirrors (cfg : Config) : led_mirrors cfg (boot cfg).
Proof.
  unfold led_mirrors. rewrite boot_eq. cbn [globals trace].
  rewrite !pin_level_app. unfold warning_events.
  destruct (Float32.gt _ _); cbn; rewrite Z.eqb_refl; reflexivity.
Qed.

Lemma loop_keeps_led_mirrors (cfg : Config) (env : Env) (sys : System) :
  led_mirrors cfg sys -> led_mirrors cfg (exec (loop cfg env) sys).
Proof.
  unfold led_mirrors. intros Inv. rewrite exec_loop. cbn [globals trace].
  destruct (loop_cases cfg env (globals sys)) as [D | D E | D E].
  - rewrite app_nil_r. exact Inv.
  - rewrite app_nil_r. exact Inv.
  - rewrite pin_level_app, pin_level_edge. reflexivity.
Qed.

Lemma run_keeps_led_mirrors (cfg : Config) (envs : list Env) :
  forall sys, led_mirrors cfg sys -> led_mirrors cfg (run cfg envs sys).
Proof.
  induction envs as [ | env envs IH ]; intros sys Inv.
  - exact Inv.
  - rewrite run_cons. apply IH, loop_keeps_led_mirrors, Inv.
Qed.

(** C9.  After [setup] the LED was last written LOW and [button_state] is
    false; after [setup] and any sequence of iterations the level last written
    to the LED is HIGH when [button_state] is true and LOW when it is false. *)
Theorem led_follows_button_state (cfg : Config) (envs : list Env) :
  pin_level (kStatusLedPin cfg) (trace (boot cfg)) = Some LOW
  /\ button_state (globals (boot cfg)) = false
  /\ (pin_level (kStatusLedPin cfg) (trace (run cfg envs (boot cfg))) = Some HIGH
      <-> button_state (globals (run cfg envs (boot cfg))) = true)
  /\ (pin_level (kStatusLedPin cfg) (trace (run cfg envs (boot cfg))) = Some LOW
      <-> button_state (globals (run cfg envs (boot cfg))) = false).
Proof.
  pose proof (boot_led_mirrors cfg) as B.
  pose proof (run_keeps_led_mirrors cfg envs (boot cfg) B) as R.
  unfold led_mirrors in B, R.
  assert (G : button_state (globals (boot cfg)) = false)
    by (rewrite boot_eq; reflexivity).
  split; [ rewrite B, G; reflexivity | ].
  split; [ exact G | ].
  rewrite R. clear B G R.
  destruct (button_state (globals (run cfg envs (boot cfg)))); unfold HIGH, LOW.
  - split; split; intros H; [ reflexivity | reflexivity | | ]; discriminate H.
  - split; split; intros H; [ | | reflexivity | reflexivity ]; discriminate H.
Qed.

(* ------------------------------------------------------------------------- *)
(** ** The shape of a run *)

Lemma run_step (cfg : Config) (env : Env) (envs : list Env) (g : Globals) :
  run cfg (env :: envs) {| globals := g; trace := [] |}
  = {| globals :=
         globals (run cfg envs {| globals := state_after (loop cfg env) g;
                                  trace := [] |});
       trace :=
         events_of (loop cfg env) g
         ++ trace (run cfg envs {| globals := state_after (loop cfg env) g;
                                   trace := [] |}) |}.
Proof.
  rewrite run_cons, exec_loop. cbn [globals trace app].
  apply run_trace_prefix.
Qed.

Lemma even_flip (n : nat) (b : bool) :
  (if Nat.even (S n) then b else negb b)
  = (if Nat.even n then negb b else negb (negb b)).
Proof.
  rewrite Nat.even_succ, <- Nat.negb_even.
  destruct (Nat.even n); cbn; [ reflexivity | ].
  symmetry. apply negb_involutive.
Qed.

(** Every run is a succession of state changes that alternate, the first one
    away from the state the run started in. *)
Lemma run_trace_shape (cfg : Config) (envs : list Env) :
  forall g,
    exists n,
      trace (run cfg envs {| globals := g; trace := [] |})
      = flat_map (edge_events cfg) (alternate (negb (button_state g)) n)
      /\ button_state (globals (run cfg envs {| globals := g; trace := [] |}))
         = if Nat.even n then button_state g else negb (button_state g).
Proof.
  induction envs as [ | env envs IH ]; intros g.
  - exists 0%nat. split; reflexivity.
  - rewrite run_step. cbn [globals trace].
    destruct (loop_cases cfg env g) as [D | D E | D E].
    + apply IH.
    + apply (IH {| last_sample_ms := millis env;
                   button_state := button_state g |}).
    + destruct (IH {| last_sample_ms := millis env;
                      button_state := raw_pressed cfg env |}) as [n [Ht Hb]].
      cbn [button_state] in Ht, Hb.
      exists (S n). rewrite Ht, Hb, E. cbn [alternate flat_map].
      split; [ reflexivity | ].
      symmetry. apply even_flip.
Qed.

Lemma output_writes_edges (cfg : Config) (l : list bool) :
  output_writes (flat_map (edge_events cfg) l)
  = map (fun b => (kStatusLedPin cfg, led_level_of b)) l.
Proof.
  induction l as [ | b l IH ]; [ reflexivity | ].
  cbn [flat_map]. unfold output_writes in *.
  rewrite flat_map_app, IH. reflexivity.
Qed.

Lemma serial_lines_edges (cfg : Config) (l : list bool) :
  serial_lines (flat_map (edge_events cfg) l)
  = map (fun b : bool => [PStr "Button state: ";
                          PStr (if b then "pressed" else "released")]) l.
Proof.
  induction l as [ | b l IH ]; [ reflexivity | ].
  cbn [flat_map map]. rewrite <- IH. reflexivity.
Qed.

Lemma pin_modes_edges (cfg : Config) (l : list bool) :
  forallb (fun e => negb (is_pin_mode e || is_serial_begin e))
    (flat_map (edge_events cfg) l) = true.
Proof.
  induction l as [ | b l IH ]; [ reflexivity | ].
  cbn [flat_map]. rewrite forallb_app, IH. reflexivity.
Qed.

(** X1.  In any run the LED writes alternate: the first goes to the level
    opposite to the state the run started in, each later one to the level
    opposite to the one before; all go to the status LED pin; and the run
    prints exactly one line per write, naming the state just written. *)
Theorem run_writes_alternate
  (cfg : Config) (envs : list Env) (g : Globals)
  (fmt_float : float -> string) :
  exists n,
    let sys := run cfg envs {| globals := g; trace := [] |} in
    output_writes (trace sys)
    = map (fun b => (kStatusLedPin cfg, led_level_of b))
        (alternate (negb (button_state g)) n)
    /\ map (line_text fmt_float) (serial_lines (trace sys))
       = map notification_of (alternate (negb (button_state g)) n)
    /\ button_state (globals sys)
       = if Nat.even n then button_state g else negb (button_state g).
Proof.
  destruct (run_trace_shape cfg envs g) as [n [Ht Hb]].
  exists n. cbv zeta. rewrite Ht.
  split; [ apply output_writes_edges | split; [ | exact Hb ] ].
  rewrite serial_lines_edges, map_map.
  apply map_ext. intros [ | ]; reflexivity.
Qed.

Lemma output_writes_app (t1 t2 : list Event) :
  output_writes (t1 ++ t2) = output_writes t1 ++ output_writes t2.
Proof. apply flat_map_app. Qed.

Lemma output_writes_boot (cfg : Config) :
  output_writes (trace (boot cfg)) = [(kStatusLedPin cfg, LOW)].
Proof.
  rewrite boot_eq. cbn [trace]. rewrite !output_writes_app.
  unfold warning_events. destruct (Float32.gt _ _); reflexivity.
Qed.

Lemma run_after_boot (cfg : Config) (envs : list Env) :
  trace (run cfg envs (boot cfg))
  = trace (boot cfg) ++ trace (run cfg envs power_on).
Proof.
  rewrite boot_eq at 1. rewrite run_trace_prefix. cbn [trace].
  rewrite boot_eq. reflexivity.
Qed.

(** X2.  From power-on through any number of iterations, the firmware only
    ever writes the status LED pin, and only the levels LOW and HIGH; so a
    button pin different from the LED pin is never written. *)
Theorem only_status_led_written (cfg : Config) (envs : list Env) :
  Forall (fun w => fst w = kStatusLedPin cfg /\ (snd w = LOW \/ snd w = HIGH))
    (output_writes (trace (run cfg envs (boot cfg))))
  /\ (kButtonPin cfg <> kStatusLedPin cfg ->
      forall level,
        ~ In (kButtonPin cfg, level)
            (output_writes (trace (run cfg envs (boot cfg))))).
Proof.
  assert (A : Forall (fun w => fst w = kStatusLedPin cfg
                               /\ (snd w = LOW \/ snd w = HIGH))
                (output_writes (trace (run cfg envs (boot cfg))))).
  { rewrite run_after_boot, output_writes_app, output_writes_boot.
    destruct (run_trace_shape cfg envs initial_globals) as [n [Ht _]].
    unfold power_on. rewrite Ht, output_writes_edges.
    cbn [app]. constructor.
    - split; [ reflexivity | left; reflexivity ].
    - apply Forall_forall. intros w Hw. apply in_map_iff in Hw.
      destruct Hw as [b [Hb _]]. rewrite <- Hb. cbn [fst snd].
      split; [ reflexivity | ].
      destruct b; [ right | left ]; reflexivity. }
  split; [ exact A | ].
  intros Hne level Hin.
  rewrite Forall_forall in A. destruct (A _ Hin) as [Hpin _].
  cbn [fst] in Hpin. contradiction.
Qed.

Lemma only_status_led_written_witness :
  kButtonPin sigma <> kStatusLedPin sigma
  /\ ~ In (kButtonPin sigma, LOW)
         (output_writes
            (trace (run sigma [sample true 10; sample false 30] (boot sigma)))).
Proof.
  assert (H : kButtonPin sigma <> kStatusLedPin sigma) by discriminate.
  split; [ exact H | ].
  exact (proj2 (only_status_led_written sigma
                  [sample true 10; sample false 30]) H LOW).
Defined.

(* ------------------------------------------------------------------------- *)
(** ** Timing of accepted samples *)

Lemma ulong_sub_same (a : Z) : ulong_sub a a = 0.
Proof. unfold ulong_sub. rewrite Z.sub_diag. reflexivity. Qed.

Lemma ulong_sub_no_wrap (now last : Z) :
  0 <= last <= now -> now < ulong_modulus -> ulong_sub now last = now - last.
Proof.
  intros H1 H2. unfold ulong_sub. apply Z.mod_small. lia.
Qed.

Lemma exec_loop_ignored (cfg : Config) (env : Env) (sys : System) :
  debounced env (globals sys) = true -> exec (loop cfg env) sys = sys.
Proof.
  intros D. unfold exec. rewrite (loop_ignored cfg env _ D).
  rewrite app_nil_r. destruct sys; reflexivity.
Qed.

(** X3.  A second iteration at the same clock reading does nothing, whatever
    the button reads by then: running it after the first leaves the globals
    and the trace as the first left them. *)
Theorem loop_same_millis (cfg : Config) (e1 e2 : Env) (sys : System) :
  millis e2 = millis e1 ->
  exec (loop cfg e2) (exec (loop cfg e1) sys) = exec (loop cfg e1) sys.
Proof.
  intros Hm. apply exec_loop_ignored.
  rewrite exec_loop. cbn [globals].
  destruct (loop_cases cfg e1 (globals sys)) as [D | D E | D E];
    unfold debounced in *; rewrite Hm; cbn [last_sample_ms];
    try exact D; rewrite ulong_sub_same; reflexivity.
Qed.

Lemma loop_same_millis_witness :
  millis (sample false 10) = millis (sample true 10)
  /\ exec (loop sigma (sample false 10)) (exec (loop sigma (sample true 10)) power_on)
     = exec (loop sigma (sample true 10)) power_on.
Proof.
  split; [ reflexivity | ].
  apply (loop_same_millis sigma (sample true 10) (sample false 10) power_on).
  reflexivity.
Defined.

(** X4.  Iterations during the first debounce interval after power-on (clock
    readings 0 to 9) are all ignored: the system stays exactly as [setup]
    left it, so a press that begins and ends in that window is never seen. *)
Theorem ignored_until_first_interval (cfg : Config) (envs : list Env) :
  Forall (fun env => 0 <= millis env < kDebounceDelayMs) envs ->
  run cfg envs (boot cfg) = boot cfg.
Proof.
  assert (G : globals (boot cfg) = initial_globals)
    by (rewrite boot_eq; reflexivity).
  revert G. generalize (boot cfg) as sys. intros sys G H.
  induction H as [ | env envs Henv _ IH ]; [ reflexivity | ].
  rewrite run_cons, exec_loop_ignored; [ exact IH | ].
  rewrite G. unfold debounced. cbn [last_sample_ms initial_globals].
  apply Z.ltb_lt. unfold ulong_sub. rewrite Z.sub_0_r.
  rewrite Z.mod_small; [ apply Henv | ].
  unfold kDebounceDelayMs, ulong_modulus, ulong_bits in *. cbn. lia.
Qed.

Lemma ignored_until_first_interval_witness :
  Forall (fun env => 0 <= millis env < kDebounceDelayMs)
    [sample true 0; sample true 9; sample false 9]
  /\ run sigma [sample true 0; sample true 9; sample false 9] (boot sigma)
     = boot sigma.
Proof.
  assert (H : Forall (fun env => 0 <= millis env < kDebounceDelayMs)
                [sample true 0; sample true 9; sample false 9]).
  { repeat constructor; cbn; discriminate. }
  split; [ exact H | ].
  exact (ignored_until_first_interval sigma _ H).
Defined.

(** X5.  A value that is read throughout a run is registered as soon as one
    of the readings falls outside the debounce window of the starting state:
    the run then ends with [button_state] equal to that value. *)
Theorem held_value_registered
  (cfg : Config) (raw : bool) (envs : list Env) (g : Globals) :
  Forall (fun env => raw_pressed cfg env = raw) envs ->
  Exists (fun env => debounced env g = false) envs ->
  button_state (globals (run cfg envs {| globals := g; trace := [] |})) = raw.
Proof.
  intros Hraw. revert g.
  induction Hraw as [ | env envs Henv Hrest IH ]; intros g Hex.
  - inversion Hex.
  - rewrite run_step. cbn [globals].
    destruct (loop_cases cfg env g) as [D | D E | D E].
    + apply IH. inversion Hex as [? ? Hd | ? ? Ht]; subst.
      * congruence.
      * exact Ht.
    + apply (run_steady cfg raw envs Hrest
               {| globals := {| last_sample_ms := millis env;
                                button_state := button_state g |};
                  trace := [] |}).
      cbn. congruence.
    + apply (run_steady cfg raw envs Hrest
               {| globals := {| last_sample_ms := millis env;
                                button_state := raw_pressed cfg env |};
                  trace := [] |}).
      cbn. exact Henv.
Qed.

Lemma held_value_registered_witness :
  Forall (fun env => raw_pressed sigma env = true)
    [sample true 3; sample true 8; sample true 13]
  /\ Exists (fun env => debounced env initial_globals = false)
       [sample true 3; sample true 8; sample true 13]
  /\ button_state
       (globals (run sigma [sample true 3; sample true 8; sample true 13]
                   {| globals := initial_globals; trace := [] |})) = true.
Proof.
  assert (H1 : Forall (fun env => raw_pressed sigma env = true)
                 [sample true 3; sample true 8; sample true 13])
    by (repeat constructor).
  assert (H2 : Exists (fun env => debounced env initial_globals = false)
                 [sample true 3; sample true 8; sample true 13])
    by (do 2 apply Exists_cons_tl; apply Exists_cons_hd; reflexivity).
  split; [ exact H1 | split; [ exact H2 | ] ].
  exact (held_value_registered sigma true _ initial_globals H1 H2).
Defined.

Lemma length_output_writes_edge (cfg : Config) (b : bool) :
  List.length (output_writes (edge_events cfg b)) = 1%nat.
Proof. reflexivity. Qed.

Lemma rate_limit_from (cfg : Config) (envs : list Env) :
  forall (g : Globals) (t0 : Z),
    0 <= last_sample_ms g <= t0 ->
    clock_advances t0 envs ->
    let sys := run cfg envs {| globals := g; trace := [] |} in
    last_sample_ms g <= last_sample_ms (globals sys)
    /\ kDebounceDelayMs * Z.of_nat (List.length (output_writes (trace sys)))
       <= last_sample_ms (globals sys) - last_sample_ms g.
Proof.
  induction envs as [ | env envs IH ]; intros g t0 Hl Hc; cbv zeta.
  - cbn. unfold kDebounceDelayMs. lia.
  - destruct Hc as [Hnow Hc].
    assert (Hsub : ulong_sub (millis env) (last_sample_ms g)
                   = millis env - last_sample_ms g)
      by (apply ulong_sub_no_wrap; lia).
    rewrite run_step. cbn [globals trace].
    rewrite output_writes_app, length_app, Nat2Z.inj_add.
    destruct (loop_cases cfg env g) as [D | D E | D E].
    + specialize (IH g (millis env) ltac:(lia) Hc). cbv zeta in IH.
      cbn [output_writes flat_map List.length]. lia.
    + unfold debounced in D. rewrite Hsub in D. apply Z.ltb_ge in D.
      specialize (IH {| last_sample_ms := millis env;
                        button_state := button_state g |}
                    (millis env) ltac:(cbn; lia) Hc).
      cbv zeta in IH. cbn [last_sample_ms] in IH.
      cbn [output_writes flat_map List.length]. lia.
    + unfold debounced in D. rewrite Hsub in D. apply Z.ltb_ge in D.
      specialize (IH {| last_sample_ms := millis env;
                        button_state := raw_pressed cfg env |}
                    (millis env) ltac:(cbn; lia) Hc).
      cbv zeta in IH. cbn [last_sample_ms] in IH.
      rewrite length_output_writes_edge. unfold kDebounceDelayMs in *. lia.
Qed.

(** X6.  Rate limit.  With a clock that never goes back and does not wrap
    during the run, every state change costs a full debounce interval: the
    number of LED writes (state changes), times 10 ms, is at most the time
    between the last accepted sample before the run and the last accepted
    sample of the run. *)
Theorem state_changes_rate_limited
  (cfg : Config) (envs : list Env) (g : Globals) :
  0 <= last_sample_ms g ->
  clock_advances (last_sample_ms g) envs ->
  kDebounceDelayMs
  * Z.of_nat (List.length
                (output_writes
                   (trace (run cfg envs {| globals := g; trace := [] |}))))
  <= last_sample_ms (globals (run cfg envs {| globals := g; trace := [] |}))
     - last_sample_ms g.
Proof.
  intros H0 Hc.
  apply (rate_limit_from cfg envs g (last_sample_ms g)); [ lia | exact Hc ].
Qed.

Lemma state_changes_rate_limited_witness :
  0 <= last_sample_ms initial_globals
  /\ clock_advances (last_sample_ms initial_globals)
       [sample true 10; sample false 15; sample false 20]
  /\ kDebounceDelayMs
     * Z.of_nat (List.length
                   (output_writes
                      (trace (run sigma
                                [sample true 10; sample false 15; sample false 20]
                                {| globals := initial_globals; trace := [] |}))))
     <= last_sample_ms
          (globals (run sigma [sample true 10; sample false 15; sample false 20]
                      {| globals := initial_globals; trace := [] |}))
        - last_sample_ms initial_globals.
Proof.
  assert (H0 : 0 <= last_sample_ms initial_globals) by (cbn; lia).
  assert (Hc : clock_advances (last_sample_ms initial_globals)
                 [sample true 10; sample false 15; sample false 20]).
  { cbn. unfold ulong_modulus, ulong_bits. cbn. lia. }
  split; [ exact H0 | split; [ exact Hc | ] ].
  exact (state_changes_rate_limited sigma _ initial_globals H0 Hc).
Defined.

Lemma last_sample_ms_source (cfg : Config) (envs : list Env) :
  forall g,
    In (last_sample_ms (globals (run cfg envs {| globals := g; trace := [] |})))
       (last_sample_ms g :: map millis envs).
Proof.
  induction envs as [ | env envs IH ]; intros g.
  - left. reflexivity.
  - rewrite run_step. cbn [globals map].
    destruct (loop_cases cfg env g) as [D | D E | D E].
    + destruct (IH g) as [H | H]; [ left; exact H | right; right; exact H ].
    + right. apply (IH {| last_sample_ms := millis env;
                          button_state := button_state g |}).
    + right. apply (IH {| last_sample_ms := millis env;
                          button_state := raw_pressed cfg env |}).
Qed.

(** X7.  [last_sample_ms] only ever holds the value it started with or a
    clock reading of one of the iterations run; so it stays within the range
    of [unsigned long] whenever the clock readings do. *)
Theorem last_sample_ms_is_a_reading
  (cfg : Config) (envs : list Env) (g : Globals) :
  In (last_sample_ms (globals (run cfg envs {| globals := g; trace := [] |})))
     (last_sample_ms g :: map millis envs)
  /\ (is_ulong (last_sample_ms g) ->
      Forall (fun env => is_ulong (millis env)) envs ->
      is_ulong
        (last_sample_ms
           (globals (run cfg envs {| globals := g; trace := [] |})))).
Proof.
  pose proof (last_sample_ms_source cfg envs g) as S.
  split; [ exact S | ].
  intros Hg Henvs. destruct S as [S | S].
  - rewrite <- S. exact Hg.
  - apply in_map_iff in S. destruct S as [env [<- Hin]].
    rewrite Forall_forall in Henvs. apply Henvs, Hin.
Qed.

Lemma last_sample_ms_is_a_reading_witness :
  is_ulong (last_sample_ms initial_globals)
  /\ Forall (fun env => is_ulong (millis env)) [sample true 12; sample true 40]
  /\ is_ulong
       (last_sample_ms
          (globals (run sigma [sample true 12; sample true 40]
                      {| globals := initial_globals; trace := [] |}))).
Proof.
  assert (H1 : is_ulong (last_sample_ms initial_globals))
    by (split; [ discriminate | reflexivity ]).
  assert (H2 : Forall (fun env => is_ulong (millis env))
                 [sample true 12; sample true 40])
    by (repeat constructor; discriminate).
  split; [ exact H1 | split; [ exact H2 | ] ].
  exact (proj2 (last_sample_ms_is_a_reading sigma _ initial_globals) H1 H2).
Defined.

(** X8.  The guard sees elapsed time only modulo 2^32 ms (about 49.7 days):
    if [D] milliseconds, however many, have passed since the last accepted
    sample, the iteration is ignored exactly when [D mod 2^32 < 10].  A
    reading taken 2^32 + 3 ms after the last accepted one is thus ignored. *)
Theorem guard_aliases_elapsed_time
  (cfg : Config) (env : Env) (g : Globals) (D : Z) :
  0 <= D ->
  millis env = (last_sample_ms g + D) mod ulong_modulus ->
  debounced env g = (D mod ulong_modulus <? kDebounceDelayMs)
  /\ (D mod ulong_modulus < kDebounceDelayMs -> loop cfg env g = (tt, g, []))
  /\ (kDebounceDelayMs <= D mod ulong_modulus ->
      last_sample_ms (state_after (loop cfg env) g) = millis env).
Proof.
  intros HD Hnow.
  assert (E : ulong_sub (millis env) (last_sample_ms g) = D mod ulong_modulus).
  { rewrite Hnow. unfold ulong_sub. rewrite Zminus_mod_idemp_l.
    f_equal. lia. }
  split; [ unfold debounced; rewrite E; reflexivity | ].
  split; intros H.
  - apply loop_within_window. rewrite E. exact H.
  - apply loop_past_window. rewrite E. exact H.
Qed.

Lemma guard_aliases_elapsed_time_witness :
  0 <= 4294967299
  /\ millis (sample true 103)
     = (last_sample_ms {| last_sample_ms := 100; button_state := false |}
        + 4294967299) mod ulong_modulus
  /\ loop sigma (sample true 103)
       {| last_sample_ms := 100; button_state := false |}
     = (tt, {| last_sample_ms := 100; button_state := false |}, []).
Proof.
  assert (H0 : 0 <= 4294967299) by discriminate.
  assert (H1 : millis (sample true 103)
               = (last_sample_ms {| last_sample_ms := 100; button_state := false |}
                  + 4294967299) mod ulong_modulus) by reflexivity.
  split; [ exact H0 | split; [ exact H1 | ] ].
  apply (proj1 (proj2 (guard_aliases_elapsed_time sigma (sample true 103)
                         {| last_sample_ms := 100; button_state := false |}
                         4294967299 H0 H1))).
  reflexivity.
Defined.

(* ------------------------------------------------------------------------- *)
(** ** The SPL check at the edges of [float] *)

Lemma SFcompare_none (a b : float) :
  SFcompare a b = None <-> is_nan a || is_nan b = true.
Proof.
  destruct a as [sa | sa | | sa ma ea], b as [sb | sb | | sb mb eb];
    cbn; try destruct sa; try destruct sb; cbn;
    split; intros H; solve [ reflexivity | discriminate H ].
Qed.

Lemma gt_is_not_le (a b : float) :
  is_nan a = false -> is_nan b = false ->
  Float32.gt a b = negb (Float32.le a b).
Proof.
  intros Ha Hb.
  unfold Float32.le, Float32.gt, SFleb, SFltb.
  rewrite (SFcompare_swap a b).
  destruct (SFcompare a b) as [[ | | ] | ] eqn:E; try reflexivity.
  apply SFcompare_none in E. rewrite Ha, Hb in E. discriminate E.
Qed.

(** X9.  When neither SPL limit is a NaN, the startup check and the unit
    test's ordering assertion agree: the warning line is printed exactly when
    [kRecommendedMaxSplDb <= kAbsoluteMaxSplDb] is false. *)
Theorem warning_iff_test_fails (cfg : Config) (g : Globals) :
  is_nan (kRecommendedMaxSplDb cfg) = false ->
  is_nan (kAbsoluteMaxSplDb cfg) = false ->
  (spl_ok cfg = true <-> events_of (enforce_audio_safety cfg) g = [])
  /\ (spl_ok cfg = false
      <-> events_of (enforce_audio_safety cfg) g = [spl_warning_event]).
Proof.
  intros Hr Ha. unfold events_of, spl_ok.
  rewrite enforce_audio_safety_eq, (gt_is_not_le _ _ Hr Ha). cbn [snd].
  destruct (Float32.le _ _); cbn;
    split; split; intros H; solve [ reflexivity | discriminate H ].
Qed.

Lemma warning_iff_test_fails_witness :
  is_nan (kRecommendedMaxSplDb too_loud) = false
  /\ is_nan (kAbsoluteMaxSplDb too_loud) = false
  /\ events_of (enforce_audio_safety too_loud) initial_globals
     = [spl_warning_event].
Proof.
  split; [ reflexivity | split; [ reflexivity | ] ].
  apply (proj2 (warning_iff_test_fails too_loud initial_globals
                  eq_refl eq_refl)).
  reflexivity.
Defined.

(** X10.  A NaN in either SPL limit escapes the startup check: it prints
    nothing and changes nothing, although the ordering the unit test asserts
    does not hold for such a configuration. *)
Theorem nan_spl_not_reported (cfg : Config) (g : Globals) :
  is_nan (kRecommendedMaxSplDb cfg) || is_nan (kAbsoluteMaxSplDb cfg) = true ->
  enforce_audio_safety cfg g = (tt, g, []) /\ spl_ok cfg = false.
Proof.
  intros H. rewrite enforce_audio_safety_eq.
  unfold spl_ok, Float32.gt, Float32.le, SFltb, SFleb.
  assert (E1 : SFcompare (kRecommendedMaxSplDb cfg) (kAbsoluteMaxSplDb cfg)
               = None) by (apply SFcompare_none; exact H).
  assert (E2 : SFcompare (kAbsoluteMaxSplDb cfg) (kRecommendedMaxSplDb cfg)
               = None) by (apply SFcompare_none; rewrite orb_comm; exact H).
  rewrite E1, E2. split; reflexivity.
Qed.

Lemma nan_spl_not_reported_witness :
  is_nan (kRecommendedMaxSplDb (with_spl sigma S754_nan f94_0))
  || is_nan (kAbsoluteMaxSplDb (with_spl sigma S754_nan f94_0)) = true
  /\ enforce_audio_safety (with_spl sigma S754_nan f94_0) initial_globals
     = (tt, initial_globals, []).
Proof.
  split; [ reflexivity | ].
  apply (nan_spl_not_reported (with_spl sigma S754_nan f94_0) initial_globals).
  reflexivity.
Defined.

(* ------------------------------------------------------------------------- *)
(** ** What the unit tests of [test_config.cpp] guarantee *)

Lemma lt_le_trans (a b c : float) :
  Float32.lt a b = true -> Float32.le b c = true -> Float32.lt a c = true.
Proof.
  unfold Float32.lt, Float32.le, SFltb, SFleb.
  destruct a as [sa | sa | | sa ma ea], b as [sb | sb | | sb mb eb],
    c as [sc | sc | | sc mc ec];
    try destruct sa; try destruct sb; try destruct sc; cbn;
    intros H1 H2; try reflexivity; try discriminate H1; try discriminate H2.
  all: order_cases; subst; cbn in *; try reflexivity; try discriminate; try lia.
Qed.

Lemma le_lt_trans (a b c : float) :
  Float32.le a b = true -> Float32.lt b c = true -> Float32.lt a c = true.
Proof.
  unfold Float32.lt, Float32.le, SFltb, SFleb.
  destruct a as [sa | sa | | sa ma ea], b as [sb | sb | | sb mb eb],
    c as [sc | sc | | sc mc ec];
    try destruct sa; try destruct sb; try destruct sc; cbn;
    intros H1 H2; try reflexivity; try discriminate H1; try discriminate H2.
  all: order_cases; subst; cbn in *; try reflexivity; try discriminate; try lia.
Qed.

Lemma lt_le (a b : float) : Float32.lt a b = true -> Float32.le a b = true.
Proof.
  unfold Float32.lt, Float32.le, SFltb, SFleb.
  destruct (SFcompare a b) as [[ | | ] | ]; intros H;
    solve [ reflexivity | discriminate H ].
Qed.

Lemma lt_not_nan (a b : float) :
  Float32.lt a b = true -> is_nan a = false /\ is_nan b = false.
Proof.
  unfold Float32.lt, SFltb.
  destruct a, b; cbn; intros H; split;
    solve [ reflexivity | discriminate H ].
Qed.

(** X11.  The three assertions of [test_mic_bias_bounds] (min >= 1.5,
    max <= 3.6, min < max) put both bounds inside the envelope: each of the
    two lies in [1.5, 3.6], the upper one strictly above 1.5 and the lower one
    strictly below 3.6, and neither is a NaN. *)
Theorem mic_bias_test_bounds_envelope (cfg : Config) :
  mic_bias_ok cfg = true ->
  (Float32.ge (kMicBiasMinVolts cfg) f1_5 = true
   /\ Float32.lt (kMicBiasMinVolts cfg) f3_6 = true)
  /\ (Float32.gt (kMicBiasMaxVolts cfg) f1_5 = true
      /\ Float32.le (kMicBiasMaxVolts cfg) f3_6 = true)
  /\ is_nan (kMicBiasMinVolts cfg) = false
  /\ is_nan (kMicBiasMaxVolts cfg) = false.
Proof.
  unfold mic_bias_ok. intros H.
  apply andb_prop in H. destruct H as [H Hlt].
  apply andb_prop in H. destruct H as [Hmin Hmax].
  split; [ split; [ exact Hmin | ] | split; [ split; [ | exact Hmax ] | ] ].
  - exact (lt_le_trans _ _ _ Hlt Hmax).
  - exact (le_lt_trans _ _ _ Hmin Hlt).
  - exact (lt_not_nan _ _ Hlt).
Qed.

Lemma mic_bias_test_bounds_envelope_witness :
  mic_bias_ok sigma = true
  /\ Float32.lt (kMicBiasMinVolts sigma) f3_6 = true
  /\ Float32.gt (kMicBiasMaxVolts sigma) f1_5 = true.
Proof.
  assert (H : mic_bias_ok sigma = true) by reflexivity.
  pose proof (mic_bias_test_bounds_envelope sigma H) as [[_ A] [[B _] _]].
  split; [ exact H | split; [ exact A | exact B ] ].
Defined.

(** X12.  The two assertions of [test_battery_thresholds]
    (critical < low, low <= nominal) order the three thresholds strictly at
    the ends: critical is strictly below nominal, and none of the three is a
    NaN. *)
Theorem battery_test_orders_thresholds (cfg : Config) :
  battery_ok cfg = true ->
  Float32.lt (kBatteryCriticalVolts cfg) (kBatteryNominalVolts cfg) = true
  /\ is_nan (kBatteryCriticalVolts cfg) = false
  /\ is_nan (kBatteryLowVolts cfg) = false
  /\ is_nan (kBatteryNominalVolts cfg) = false.
Proof.
  unfold battery_ok. intros H.
  apply andb_prop in H. destruct H as [Hcl Hln].
  pose proof (lt_le_trans _ _ _ Hcl Hln) as Hcn.
  destruct (lt_not_nan _ _ Hcl) as [Nc Nl].
  destruct (lt_not_nan _ _ Hcn) as [_ Nn].
  repeat split; assumption.
Qed.

Lemma battery_test_orders_thresholds_witness :
  battery_ok sigma = true
  /\ Float32.lt (kBatteryCriticalVolts sigma) (kBatteryNominalVolts sigma) = true.
Proof.
  assert (H : battery_ok sigma = true) by reflexivity.
  split; [ exact H | ].
  exact (proj1 (battery_test_orders_thresholds sigma H)).
Defined.

(* ------------------------------------------------------------------------- *)
(** ** The callouts and the startup sequence *)

(** X13.  [report_safety_callouts] prints three lines and changes no state.
    The absolute SPL maximum and the critical battery voltage in them are
    fixed text ("94 dB", "3.0 V"): the lines stay the same whatever
    [kAbsoluteMaxSplDb], [kBatteryNominalVolts] and [kBatteryCriticalVolts]
    are set to. *)
Theorem callouts_fixed_text
  (cfg : Config) (g : Globals) (absolute nominal critical : float)
  (fmt_float : float -> string) :
  state_after
    (report_safety_callouts (with_unprinted cfg absolute nominal critical)) g
  = g
  /\ map (line_text fmt_float)
       (serial_lines
          (events_of
             (report_safety_callouts
                (with_unprinted cfg absolute nominal critical)) g))
     = [ ("[safety] Maintain SPL under "
          ++ fmt_float (kRecommendedMaxSplDb cfg)
          ++ " dB for extended sessions (absolute max 94 dB).")%string;
         ("[safety] Keep mic bias between "
          ++ fmt_float (kMicBiasMinVolts cfg) ++ " V and "
          ++ fmt_float (kMicBiasMaxVolts cfg) ++ " V.")%string;
         ("[safety] Stop use if battery drops below "
          ++ fmt_float (kBatteryLowVolts cfg)
          ++ " V (critical at 3.0 V).")%string ].
Proof. split; reflexivity. Qed.

(** X14.  In the whole life of the firmware [Serial.begin] is called exactly
    once, after the pin set-up and before anything is printed; nothing after
    it changes a pin mode or calls [Serial.begin] again. *)
Theorem serial_begun_once (cfg : Config) (envs : list Env) :
  exists post,
    trace (run cfg envs (boot cfg))
    = [ PinModeSet (kStatusLedPin cfg) OUTPUT;
        PinModeSet (kButtonPin cfg) INPUT_PULLUP;
        DigitalWrite (kStatusLedPin cfg) LOW;
        SerialBegin (kSerialBaudRate cfg) ] ++ post
    /\ forallb (fun e => negb (is_pin_mode e || is_serial_begin e)) post = true.
Proof.
  destruct (run_trace_shape cfg envs initial_globals) as [n [Ht _]].
  exists (skipn 4 (banner_events cfg) ++ warning_events cfg
          ++ callout_events cfg ++ trace (run cfg envs power_on)).
  split.
  - rewrite run_after_boot, boot_eq. cbn [trace].
    rewrite <- !app_assoc. reflexivity.
  - unfold power_on. rewrite Ht, !forallb_app, pin_modes_edges.
    unfold warning_events. destruct (Float32.gt _ _); reflexivity.
Qed.

(* ------------------------------------------------------------------------- *)
(** ** The two firmwares *)

(** X15.  [apps/firmware] extends [firmware]: with the macros set to the
    pins and version of the configuration, the two [loop]s are the same
    routine, and (for the baud rate 115200 the older [setup] hard-codes) the
    newer [setup] makes the calls of the older one followed by the safety
    check and the callouts. *)
Theorem firmware_extends_legacy (cfg : Config) (g : Globals) :
  (forall env, loop cfg env g = legacy.loop (macros_of cfg) env g)
  /\ (kSerialBaudRate cfg = 115200 ->
      setup cfg g
      = (tt, g,
         events_of (legacy.setup (macros_of cfg)) g
         ++ events_of (enforce_audio_safety cfg) g
         ++ events_of (report_safety_callouts cfg) g)).
Proof.
  split; [ reflexivity | ].
  intros Hbaud. rewrite setup_eq. unfold events_of.
  rewrite enforce_audio_safety_eq. cbn [snd].
  unfold banner_events. rewrite Hbaud. reflexivity.
Qed.

Lemma firmware_extends_legacy_witness :
  kSerialBaudRate sigma = 115200
  /\ macros_of sigma = legacy.defaults
  /\ setup sigma initial_globals
     = (tt, initial_globals,
        events_of (legacy.setup (macros_of sigma)) initial_globals
        ++ events_of (enforce_audio_safety sigma) initial_globals
        ++ events_of (report_safety_callouts sigma) initial_globals).
Proof.
  split; [ reflexivity | split; [ reflexivity | ] ].
  exact (proj2 (firmware_extends_legacy sigma initial_globals) eq_refl).
Defined.

(* ------------------------------------------------------------------------- *)
(** ** A sample taken is a sample trusted *)

(** X16.  There is no vote over several readings: whenever an iteration falls
    outside the debounce window, the one reading it takes becomes the
    debounced state at once, and the iteration makes three calls (LED write
    and the two prints) if that reading differs from the previous state and
    none if it agrees. *)
Theorem sampled_reading_is_trusted (cfg : Config) (env : Env) (g : Globals) :
  kDebounceDelayMs <= ulong_sub (millis env) (last_sample_ms g) ->
  button_state (state_after (loop cfg env) g) = raw_pressed cfg env
  /\ events_of (loop cfg env) g
     = if Bool.eqb (raw_pressed cfg env) (button_state g)
       then [] else edge_events cfg (raw_pressed cfg env).
Proof.
  intros H.
  assert (D : debounced env g = false) by (apply Z.ltb_ge; exact H).
  destruct (loop_cases cfg env g) as [D' | D' E | D' E]; cbn [button_state].
  - congruence.
  - rewrite E, Bool.eqb_reflx. split; reflexivity.
  - rewrite E. destruct (button_state g); split; reflexivity.
Qed.

Lemma sampled_reading_is_trusted_witness :
  kDebounceDelayMs <= ulong_sub (millis (sample true 10))
                        (last_sample_ms initial_globals)
  /\ button_state (state_after (loop sigma (sample true 10)) initial_globals)
     = raw_pressed sigma (sample true 10).
Proof.
  assert (H : kDebounceDelayMs
              <= ulong_sub (millis (sample true 10))
                   (last_sample_ms initial_globals)) by discriminate.
  split; [ exact H | ].
  exact (proj1 (sampled_reading_is_trusted sigma (sample true 10)
                  initial_globals H)).
Defined.
